(** * Mergington High School activities API (src/app.py)

    A shallow embedding of the request handlers of [src/app.py] and the
    properties of the activity registry they maintain.

    - The module-level dict [activities] is the only mutable state.  Python
      dicts iterate in insertion order and the reports depend on that order,
      so the registry is an association list; keys are compared with string
      equality, as Python does.
    - A handler either returns a value or raises; both leave a registry
      behind.  Handlers that mutate are written in a state-and-exception
      monad, read-only handlers take the registry as an argument. *)

From Stdlib Require Import ZArith String Ascii List.
From stdpp Require Import base list strings gmap pretty.

Local Open Scope Z_scope.
Local Open Scope string_scope.
Local Open Scope list_scope.

(** ** Data model *)

(** One value of the [activities] dict. *)
Record Activity := {
  description : string;
  schedule : string;
  max_participants : Z;
  participants : list string
}.

(** The [activities] dict, in insertion order. *)
Abbreviation registry := (list (string * Activity)).

(** Exceptions a handler can raise.  [KeyError] and [ValueError] are what
    [activities[name]] and [list.remove] raise in Python; the handlers check
    before they call either. *)
Inductive exception :=
| HTTPException (status_code : Z) (detail : string)
| KeyError (key : string)
| ValueError.

(** The JSON body [{"message": ...}] of a successful signup or unregister. *)
Record response := { message : string }.

(** ** Python primitives used by the handlers *)

(** [name in activities] *)
Fixpoint dict_contains (name : string) (reg : registry) : bool :=
  match reg with
  | [] => false
  | (k, _) :: rest => if String.eqb k name then true else dict_contains name rest
  end.

(** [activities[name]], [None] standing for [KeyError] *)
Fixpoint dict_get (name : string) (reg : registry) : option Activity :=
  match reg with
  | [] => None
  | (k, a) :: rest => if String.eqb k name then Some a else dict_get name rest
  end.

(** In-place update of the value stored under [name]: the effect of mutating
    the object that [activities[name]] returns. *)
Fixpoint dict_update (name : string) (f : Activity → Activity) (reg : registry) : registry :=
  match reg with
  | [] => []
  | (k, a) :: rest =>
      if String.eqb k name then (k, f a) :: rest
      else (k, a) :: dict_update name f rest
  end.

(** [email in lst] *)
Fixpoint list_contains (email : string) (lst : list string) : bool :=
  match lst with
  | [] => false
  | x :: rest => if String.eqb x email then true else list_contains email rest
  end.

(** [lst.append(email)] *)
Definition list_append (email : string) (lst : list string) : list string :=
  lst ++ [email].

(** [lst.remove(email)]: drops the first occurrence, [None] standing for
    [ValueError] when there is none. *)
Fixpoint list_remove (email : string) (lst : list string) : option (list string) :=
  match lst with
  | [] => None
  | x :: rest =>
      if String.eqb x email then Some rest
      else option_map (cons x) (list_remove email rest)
  end.

Definition set_participants (f : list string → list string) (a : Activity) : Activity :=
  {| description := description a;
     schedule := schedule a;
     max_participants := max_participants a;
     participants := f (participants a) |}.

(** ** The handler monad: registry state and exceptions *)

Definition handler (A : Type) : Type := registry → (exception + A) * registry.

Global Instance handler_ret : MRet handler := λ A x reg, (inr x, reg).

Global Instance handler_bind : MBind handler := λ A B f m reg,
  match m reg with
  | (inl e, reg') => (inl e, reg')
  | (inr x, reg') => f x reg'
  end.

Definition raise {A} (e : exception) : handler A := λ reg, (inl e, reg).

Definition get_state : handler registry := λ reg, (inr reg, reg).

Definition put_state (reg' : registry) : handler unit := λ _, (inr tt, reg').

(** [activity = activities[activity_name]] *)
Definition getitem (activity_name : string) : handler Activity :=
  reg ← get_state;
  match dict_get activity_name reg with
  | Some activity => mret activity
  | None => raise (KeyError activity_name)
  end.

(** [activity["participants"].append(email)], where [activity] aliases the
    value stored in [activities] under [activity_name]. *)
Definition participants_append (activity_name email : string) : handler unit :=
  reg ← get_state;
  put_state (dict_update activity_name (set_participants (list_append email)) reg).

(** [activity["participants"].remove(email)], same aliasing. *)
Definition participants_remove (activity_name email : string) : handler unit :=
  activity ← getitem activity_name;
  match list_remove email (participants activity) with
  | None => raise ValueError
  | Some lst =>
      reg ← get_state;
      put_state (dict_update activity_name (set_participants (λ _, lst)) reg)
  end.

(** ** The registry at start-up *)

Definition activities : registry := [
  ("Chess Club",
   {| description := "Learn strategies and compete in chess tournaments";
      schedule := "Fridays, 3:30 PM - 5:00 PM";
      max_participants := 12;
      participants := ["michael@mergington.edu"; "daniel@mergington.edu"] |});
  ("Programming Class",
   {| description := "Learn programming fundamentals and build software projects";
      schedule := "Tuesdays and Thursdays, 3:30 PM - 4:30 PM";
      max_participants := 20;
      participants := ["emma@mergington.edu"; "sophia@mergington.edu"] |});
  ("Gym Class",
   {| description := "Physical education and sports activities";
      schedule := "Mondays, Wednesdays, Fridays, 2:00 PM - 3:00 PM";
      max_participants := 30;
      participants := ["john@mergington.edu"; "olivia@mergington.edu"] |});
  ("Soccer Team",
   {| description := "Join the school soccer team and compete in matches";
      schedule := "Tuesdays and Thursdays, 4:00 PM - 5:30 PM";
      max_participants := 22;
      participants := ["liam@mergington.edu"; "noah@mergington.edu"] |});
  ("Basketball Team",
   {| description := "Practice and play basketball with the school team";
      schedule := "Wednesdays and Fridays, 3:30 PM - 5:00 PM";
      max_participants := 15;
      participants := ["ava@mergington.edu"; "mia@mergington.edu"] |});
  ("Art Club",
   {| description := "Explore your creativity through painting and drawing";
      schedule := "Thursdays, 3:30 PM - 5:00 PM";
      max_participants := 15;
      participants := ["amelia@mergington.edu"; "harper@mergington.edu"] |});
  ("Drama Club",
   {| description := "Act, direct, and produce plays and performances";
      schedule := "Mondays and Wednesdays, 4:00 PM - 5:30 PM";
      max_participants := 20;
      participants := ["ella@mergington.edu"; "scarlett@mergington.edu"] |});
  ("Math Club",
   {| description := "Solve challenging problems and participate in math competitions";
      schedule := "Tuesdays, 3:30 PM - 4:30 PM";
      max_participants := 10;
      participants := ["james@mergington.edu"; "benjamin@mergington.edu"] |});
  ("Debate Team",
   {| description := "Develop public speaking and argumentation skills";
      schedule := "Fridays, 4:00 PM - 5:30 PM";
      max_participants := 12;
      participants := ["charlotte@mergington.edu"; "henry@mergington.edu"] |})
].

(** ** Registry handlers *)

(** [GET /activities] *)
Definition get_activities (reg : registry) : registry := reg.

(** The three HTTP errors of the registry handlers, under the names of the
    error taxonomy. *)
Definition NotFound : exception := HTTPException 404 "Activity not found".
Definition AlreadyRegistered : exception := HTTPException 400 "Student is already signed up".
Definition NotRegistered : exception :=
  HTTPException 400 "Student is not signed up for this activity".

(** [POST /activities/{activity_name}/signup] *)
Definition signup_for_activity (activity_name email : string) : handler response :=
  reg ← get_state;
  if negb (dict_contains activity_name reg) then raise NotFound
  else
    activity ← getitem activity_name;
    if list_contains email (participants activity) then raise AlreadyRegistered
    else
      participants_append activity_name email;;
      mret {| message := "Signed up " +:+ email +:+ " for " +:+ activity_name |}.

(** [DELETE /activities/{activity_name}/unregister] *)
Definition unregister_from_activity (activity_name email : string) : handler response :=
  reg ← get_state;
  if negb (dict_contains activity_name reg) then raise NotFound
  else
    activity ← getitem activity_name;
    if negb (list_contains email (participants activity)) then raise NotRegistered
    else
      participants_remove activity_name email;;
      mret {| message := "Unregistered " +:+ email +:+ " from " +:+ activity_name |}.

(** ** Report generator *)

(** [activities.values()] and [activities.items()] *)
Definition dict_values (reg : registry) : list Activity := map snd reg.
Definition dict_items (reg : registry) : list (string * Activity) := reg.

(** [sum(xs)]: starts from 0 and adds the items from left to right. *)
Definition py_sum (xs : list nat) : nat := fold_left Nat.add xs 0%nat.

(** [sep.join(items)] *)
Definition str_join (sep : string) (items : list string) : string :=
  String.concat sep items.

Module Report.
(** One element of the ["activities"] list of a report. *)
Record entry := {
  activity : string;
  participants_count : nat;
  max_participants : Z;
  participants : list string
}.

Record summary_t := {
  total_activities : nat;
  total_participants : nat;
  unique_users : nat
}.

Record report := {
  summary : summary_t;
  activities : list entry
}.
End Report.

(** The dict appended to [report] for the item [name, details]. *)
Definition report_entry (name : string) (details : Activity) : Report.entry :=
  {| Report.activity := name;
     Report.participants_count := length (participants details);
     Report.max_participants := max_participants details;
     Report.participants := participants details |}.

(** The generator [email for a in activities.values() for email in
    a["participants"]], as the list of what it yields. *)
Definition enrolled_emails (reg : registry) : list string :=
  a ← dict_values reg; email ← participants a; [email].

(** [GET /reports].  The loop appends one entry per item of the dict; the
    three statistics are computed from the dict itself, not from the entries. *)
Definition get_reports (reg : registry) : Report.report :=
  let report :=
    fold_left (λ report '(name, details), report ++ [report_entry name details])
      (dict_items reg) [] in
  let total_activities := length reg in
  let total_participants :=
    py_sum ((λ a, length (participants a)) <$> dict_values reg) in
  let unique_users : gset string :=
    list_to_set (enrolled_emails reg) in
  {| Report.summary :=
       {| Report.total_activities := total_activities;
          Report.total_participants := total_participants;
          Report.unique_users := size unique_users |};
     Report.activities := report |}.

(** ** Export *)

(** A cell handed to [csv.writer.writerow]: the handler passes strings and
    ints. *)
Inductive csv_value :=
| CsvStr (s : string)
| CsvInt (n : Z).

(** Calls made on the [FPDF] object, in order. *)
Inductive pdf_cmd :=
| add_page
| set_font (family : string) (size : Z)
| cell (w h : Z) (txt : string) (ln : bool) (align : string)
| ln (h : Z)
| multi_cell (w h : Z) (txt : string).

Record StreamingResponse := {
  content : string;
  media_type : string;
  headers : list (string * string)
}.

Definition csv_header : list csv_value :=
  [CsvStr "Activity"; CsvStr "Participants Count"; CsvStr "Max Participants";
   CsvStr "Participants"].

(** The row the CSV loop writes for a report entry. *)
Definition csv_row (r : Report.entry) : list csv_value :=
  [CsvStr (Report.activity r);
   CsvInt (Z.of_nat (Report.participants_count r));
   CsvInt (Report.max_participants r);
   CsvStr (str_join ", " (Report.participants r))].

(** The four calls the PDF loop makes for a report entry. *)
Definition pdf_block (r : Report.entry) : list pdf_cmd :=
  [cell 0 10 ("Actividad: " +:+ Report.activity r) true EmptyString;
   cell 0 10 ("Participantes: " +:+ pretty (Z.of_nat (Report.participants_count r))
              +:+ " / " +:+ pretty (Report.max_participants r)) true EmptyString;
   multi_cell 0 10 ("Lista: " +:+ str_join ", " (Report.participants r));
   ln 5].

Section export.
(** The libraries the handler calls are parameters: the text that
    [csv.writer(output).writerow(row)] appends to [output], whether the
    import of [fpdf] succeeded, and the bytes
    [pdf.output(dest='S').encode('latin1')] of the calls made on [pdf]. *)
Variable writerow : list csv_value → string.
Variable FPDF_AVAILABLE : bool.
Variable pdf_output : list pdf_cmd → string.

(** The contents of a [StringIO] after writing [rows] to it one by one. *)
Definition write_rows (rows : list (list csv_value)) : string :=
  fold_left (λ output row, output +:+ writerow row) rows EmptyString.

(** [GET /reports/export?format=...] *)
Definition export_reports (format : string) (reg : registry)
  : exception + StreamingResponse :=
  let report := Report.activities (get_reports reg) in
  if String.eqb format "csv" then
    let output := EmptyString in
    let output := output +:+ writerow csv_header in
    let output := fold_left (λ output r, output +:+ writerow (csv_row r)) report output in
    inr {| content := output;
           media_type := "text/csv";
           headers := [("Content-Disposition", "attachment; filename=report.csv")] |}
  else if String.eqb format "pdf" then
    if negb FPDF_AVAILABLE then
      inl (HTTPException 500 "FPDF no está instalado. Instala con 'pip install fpdf'.")
    else
      let pdf := [add_page; set_font "Arial" 12;
                  cell 200 10 "Reporte de Participación" true "C"; ln 10] in
      let pdf := fold_left (λ pdf r, pdf ++ pdf_block r) report pdf in
      inr {| content := pdf_output pdf;
             media_type := "application/pdf";
             headers := [("Content-Disposition", "attachment; filename=report.pdf")] |}
  else inl (HTTPException 400 "Formato no soportado. Usa 'csv' o 'pdf'.").
End export.

(** *** The default dialect of Python's [csv.writer]

    Used for the worked examples only: a cell is written with [str], quoted
    when it contains the delimiter, the quote character or a character of the
    line terminator, quote characters inside are doubled, cells are joined by
    commas and the record ends with CR LF. *)
Definition dquote : ascii := ascii_of_nat 34.
Definition CR : ascii := ascii_of_nat 13.
Definition LF : ascii := ascii_of_nat 10.

Fixpoint csv_special (s : string) : bool :=
  match s with
  | EmptyString => false
  | String c rest =>
      if Ascii.eqb c "," || Ascii.eqb c dquote || Ascii.eqb c CR || Ascii.eqb c LF
      then true else csv_special rest
  end.

Fixpoint csv_double_quotes (s : string) : string :=
  match s with
  | EmptyString => EmptyString
  | String c rest =>
      if Ascii.eqb c dquote then String dquote (String dquote (csv_double_quotes rest))
      else String c (csv_double_quotes rest)
  end.

Definition csv_cell (v : csv_value) : string :=
  match v with
  | CsvInt n => pretty n
  | CsvStr s =>
      if csv_special s
      then String dquote (csv_double_quotes s +:+ String dquote EmptyString)
      else s
  end.

Definition excel_writerow (row : list csv_value) : string :=
  match row with
  | [CsvStr EmptyString] => String dquote (String dquote (String CR (String LF EmptyString)))
  | _ => str_join "," (csv_cell <$> row) +:+ String CR (String LF EmptyString)
  end.

(** ** Requests and runs of the server *)

Inductive request :=
| Signup (activity_name email : string)
| Unregister (activity_name email : string).

Definition handle (req : request) : handler response :=
  match req with
  | Signup activity_name email => signup_for_activity activity_name email
  | Unregister activity_name email => unregister_from_activity activity_name email
  end.

(** The registry after serving [reqs] in order, whatever each one returned. *)
Definition run (reqs : list request) (reg : registry) : registry :=
  fold_left (λ reg req, (handle req reg).2) reqs reg.

(** ** Properties of registry states *)

(** No participants list holds the same email twice. *)
Definition no_duplicates (reg : registry) : Prop :=
  Forall (λ '(_, a), NoDup (participants a)) reg.

(** Some email is in the participants lists of two different entries. *)
Definition shared_email (reg : registry) : Prop :=
  ∃ (i j : nat) (n1 n2 : string) (a1 a2 : Activity) (email : string),
    i ≠ j ∧ reg !! i = Some (n1, a1) ∧ reg !! j = Some (n2, a2)
    ∧ email ∈ participants a1 ∧ email ∈ participants a2.

(** The activity a request is addressed to. *)
Definition request_activity (req : request) : string :=
  match req with
  | Signup activity_name _ => activity_name
  | Unregister activity_name _ => activity_name
  end.

(** What a request does to the activity it is addressed to, given the value
    found under that key: nothing when the request is refused. *)
Definition request_effect (req : request) (current : option Activity) : Activity → Activity :=
  match req, current with
  | Signup _ email, Some a =>
      if list_contains email (participants a) then id
      else set_participants (list_append email)
  | Unregister _ email, Some a =>
      match list_remove email (participants a) with
      | Some lst => set_participants (λ _, lst)
      | None => id
      end
  | _, None => id
  end.

(** Two items with the same key, description, schedule and capacity. *)
Definition same_activity (item item' : string * Activity) : Prop :=
  item.1 = item'.1
  ∧ description item.2 = description item'.2
  ∧ schedule item.2 = schedule item'.2
  ∧ max_participants item.2 = max_participants item'.2.

(** ** Small registries for the worked examples *)

(** One activity that already holds more participants than its capacity. *)
Definition crowded : registry := [
  ("Chess Club",
   {| description := "Learn strategies and compete in chess tournaments";
      schedule := "Fridays, 3:30 PM - 5:00 PM";
      max_participants := 1;
      participants := ["michael@mergington.edu"; "daniel@mergington.edu"] |})
].

(** One activity whose list names the same student twice. *)
Definition doubled : registry := [
  ("Chess Club",
   {| description := "Learn strategies and compete in chess tournaments";
      schedule := "Fridays, 3:30 PM - 5:00 PM";
      max_participants := 12;
      participants := ["michael@mergington.edu"; "michael@mergington.edu"] |})
].

(** * Worked examples *)

Example signup_chess :
  signup_for_activity "Chess Club" "new@mergington.edu" activities
  = (inr {| message := "Signed up new@mergington.edu for Chess Club" |},
     dict_update "Chess Club"
       (set_participants (λ _, ["michael@mergington.edu"; "daniel@mergington.edu";
                                "new@mergington.edu"])) activities).
Proof. reflexivity. Qed.

Example signup_twice :
  signup_for_activity "Chess Club" "daniel@mergington.edu" activities
  = (inl (HTTPException 400 "Student is already signed up"), activities).
Proof. reflexivity. Qed.

Example signup_crowded :
  (participants <$> dict_get "Chess Club"
     (signup_for_activity "Chess Club" "new@mergington.edu" crowded).2)
  = Some ["michael@mergington.edu"; "daniel@mergington.edu"; "new@mergington.edu"].
Proof. reflexivity. Qed.

Example unregister_chess :
  (unregister_from_activity "Chess Club" "michael@mergington.edu" activities).1
  = inr {| message := "Unregistered michael@mergington.edu from Chess Club" |}.
Proof. reflexivity. Qed.

Example unregister_unknown :
  unregister_from_activity "Knitting" "michael@mergington.edu" activities
  = (inl (HTTPException 404 "Activity not found"), activities).
Proof. reflexivity. Qed.

Example report_summary :
  Report.summary (get_reports activities)
  = {| Report.total_activities := 9;
       Report.total_participants := 18;
       Report.unique_users := 18 |}.
Proof. vm_compute. reflexivity. Qed.

(** One student in two clubs is counted twice in the total and once among
    the unique users. *)
Example report_shared_student :
  Report.summary
    (get_reports (signup_for_activity "Math Club" "michael@mergington.edu" activities).2)
  = {| Report.total_activities := 9;
       Report.total_participants := 19;
       Report.unique_users := 18 |}.
Proof. vm_compute. reflexivity. Qed.

(** A list that names a student twice breaks the data model: the report then
    counts two participants and one user although no two activities share a
    student.  No run of the server reaches such a registry. *)
Example report_doubled :
  Report.summary (get_reports doubled)
  = {| Report.total_activities := 1;
       Report.total_participants := 2;
       Report.unique_users := 1 |}.
Proof. vm_compute. reflexivity. Qed.

Example doubled_not_shared : ¬ shared_email doubled.
Proof.
  intros (i & j & n1 & n2 & a1 & a2 & email & Hne & Hi & Hj & _).
  destruct i as [|i], j as [|j]; simpl in *; done.
Qed.

(** The CSV export with the default dialect of [csv.writer], after a signup
    for the chess club. *)
Example export_csv_chess :
  export_reports excel_writerow false (λ _, EmptyString) "csv"
    (take 1 (signup_for_activity "Chess Club" "new@mergington.edu" activities).2)
  = inr {| content :=
             "Activity,Participants Count,Max Participants,Participants"
             +:+ String CR (String LF
               ("Chess Club,3,12," +:+ String dquote
                  ("michael@mergington.edu, daniel@mergington.edu, new@mergington.edu"
                   +:+ String dquote (String CR (String LF EmptyString)))));
           media_type := "text/csv";
           headers := [("Content-Disposition", "attachment; filename=report.csv")] |}.
Proof. vm_compute. reflexivity. Qed.

Example export_pdf_unavailable :
  export_reports excel_writerow false (λ _, EmptyString) "pdf" activities
  = inl (HTTPException 500 "FPDF no está instalado. Instala con 'pip install fpdf'.").
Proof. reflexivity. Qed.

Example export_unsupported :
  export_reports excel_writerow true (λ _, EmptyString) "xml" activities
  = inl (HTTPException 400 "Formato no soportado. Usa 'csv' o 'pdf'.").
Proof. reflexivity. Qed.

(** * Python primitives *)

Lemma list_contains_true email lst : list_contains email lst = true ↔ email ∈ lst.
Proof.
  induction lst as [|x rest IH]; simpl.
  - split; [discriminate | by intros ?%elem_of_nil].
  - rewrite elem_of_cons. destruct (String.eqb_spec x email) as [->|Hne].
    + by split; [left|].
    + rewrite IH. split; [by right | by intros [->|?]].
Qed.

Lemma list_contains_false email lst : list_contains email lst = false ↔ email ∉ lst.
Proof.
  rewrite <-list_contains_true. by destruct (list_contains email lst).
Qed.

Lemma dict_contains_get name reg :
  dict_contains name reg = match dict_get name reg with Some _ => true | None => false end.
Proof.
  induction reg as [|[k a] rest IH]; simpl; [done|].
  by destruct (String.eqb k name).
Qed.

Lemma dict_get_None name reg : dict_get name reg = None ↔ name ∉ reg.*1.
Proof.
  induction reg as [|[k a] rest IH]; simpl.
  - split; [intros _; apply not_elem_of_nil | done].
  - rewrite not_elem_of_cons. destruct (String.eqb_spec k name) as [->|Hne].
    + split; [done | by intros [? _]].
    + rewrite IH. split; [by split | by intros [_ ?]].
Qed.

Lemma dict_get_update_eq name f reg :
  dict_get name (dict_update name f reg) = f <$> dict_get name reg.
Proof.
  induction reg as [|[k a] rest IH]; simpl; [done|].
  destruct (String.eqb k name) eqn:E; simpl; by rewrite E.
Qed.

Lemma dict_get_update_ne name other f reg :
  other ≠ name → dict_get other (dict_update name f reg) = dict_get other reg.
Proof.
  intros Hne. induction reg as [|[k a] rest IH]; simpl; [done|].
  destruct (String.eqb_spec k name) as [->|Hk]; simpl.
  - by destruct (String.eqb_spec name other) as [->|].
  - by rewrite IH.
Qed.

Lemma dict_update_keys name f reg : (dict_update name f reg).*1 = reg.*1.
Proof.
  induction reg as [|[k a] rest IH]; simpl; [done|].
  destruct (String.eqb k name); simpl; [done | by f_equal].
Qed.

Lemma dict_update_lookup_ne name f reg (i : nat) k a :
  reg !! i = Some (k, a) → k ≠ name → dict_update name f reg !! i = Some (k, a).
Proof.
  revert i. induction reg as [|[k' a'] rest IH]; intros i Hi Hne; [done|].
  simpl. destruct (String.eqb_spec k' name) as [->|Hk].
  - destruct i as [|i]; simpl in *; [by simplify_eq | done].
  - destruct i as [|i]; simpl in *; [done | by apply IH].
Qed.

Lemma dict_update_update name f g reg :
  dict_update name g (dict_update name f reg) = dict_update name (g ∘ f) reg.
Proof.
  induction reg as [|[k a] rest IH]; simpl; [done|].
  destruct (String.eqb k name) eqn:E; simpl; rewrite E; [done | by rewrite IH].
Qed.

Lemma dict_update_id name f reg a :
  dict_get name reg = Some a → f a = a → dict_update name f reg = reg.
Proof.
  intros Hget Hf. induction reg as [|[k b] rest IH]; simpl in *; [done|].
  destruct (String.eqb k name); [by simplify_eq; rewrite Hf | by rewrite IH].
Qed.

Lemma list_remove_None email lst : list_remove email lst = None ↔ email ∉ lst.
Proof.
  induction lst as [|x rest IH]; simpl.
  - split; [intros _; apply not_elem_of_nil | done].
  - rewrite not_elem_of_cons. destruct (String.eqb_spec x email) as [->|Hne].
    + split; [done | by intros [? _]].
    + destruct (list_remove email rest); simpl.
      * split; [done | by intros [_ ?%IH]].
      * split; [intros _; split; [done | by apply IH] | done].
Qed.

Lemma list_remove_append email lst :
  email ∉ lst → list_remove email (list_append email lst) = Some lst.
Proof.
  unfold list_append. induction lst as [|x rest IH]; simpl; intros Hnot.
  - by rewrite String.eqb_refl.
  - apply not_elem_of_cons in Hnot as [Hne Hrest].
    destruct (String.eqb_spec x email) as [->|_]; [done|].
    by rewrite IH.
Qed.

Lemma list_remove_sublist email lst lst' :
  list_remove email lst = Some lst' → sublist lst' lst.
Proof.
  revert lst'. induction lst as [|x rest IH]; simpl; intros lst' H; [done|].
  destruct (String.eqb x email).
  - simplify_eq. by apply sublist_cons.
  - destruct (list_remove email rest) as [l|]; simplify_eq/=.
    apply sublist_skip. by apply IH.
Qed.

(** * What each handler returns *)

(** Unfolds the monad so that a handler applied to a registry reads as the
    pair it returns. *)
Ltac run_handler :=
  unfold participants_append, participants_remove, getitem, raise, get_state, put_state,
    mbind, mret, handler_bind, handler_ret.

Lemma signup_eval activity_name email reg :
  signup_for_activity activity_name email reg =
  match dict_get activity_name reg with
  | None => (inl NotFound, reg)
  | Some activity =>
      if list_contains email (participants activity) then (inl AlreadyRegistered, reg)
      else (inr {| message := "Signed up " +:+ email +:+ " for " +:+ activity_name |},
            dict_update activity_name (set_participants (list_append email)) reg)
  end.
Proof.
  unfold signup_for_activity. run_handler.
  rewrite dict_contains_get. destruct (dict_get activity_name reg) as [a|] eqn:Hget; simpl;
    rewrite ?Hget; simpl; [|done].
  by destruct (list_contains email (participants a)).
Qed.

Lemma unregister_eval activity_name email reg :
  unregister_from_activity activity_name email reg =
  match dict_get activity_name reg with
  | None => (inl NotFound, reg)
  | Some activity =>
      match list_remove email (participants activity) with
      | None => (inl NotRegistered, reg)
      | Some lst =>
          (inr {| message := "Unregistered " +:+ email +:+ " from " +:+ activity_name |},
           dict_update activity_name (set_participants (λ _, lst)) reg)
      end
  end.
Proof.
  unfold unregister_from_activity. run_handler.
  rewrite dict_contains_get. destruct (dict_get activity_name reg) as [a|] eqn:Hget; simpl;
    rewrite ?Hget; simpl; [|done].
  destruct (list_contains email (participants a)) eqn:Hin; simpl.
  - rewrite ?Hget; simpl. destruct (list_remove email (participants a)) eqn:Hrm; [done|].
    apply list_remove_None in Hrm. by apply list_contains_true in Hin.
  - apply list_contains_false, list_remove_None in Hin. by rewrite Hin.
Qed.

Lemma dict_update_frame name f reg a :
  dict_get name reg = Some a →
  let reg' := dict_update name (set_participants f) reg in
  reg'.*1 = reg.*1
  ∧ (∀ other, other ≠ name → dict_get other reg' = dict_get other reg)
  ∧ (∀ (i : nat) k b, reg !! i = Some (k, b) → k ≠ name → reg' !! i = Some (k, b))
  ∧ ∃ a', dict_get name reg' = Some a'
      ∧ description a' = description a
      ∧ schedule a' = schedule a
      ∧ max_participants a' = max_participants a
      ∧ participants a' = f (participants a).
Proof.
  intros Hget reg'. subst reg'. split_and!.
  - apply dict_update_keys.
  - intros other Hne. by apply dict_get_update_ne.
  - intros i k b Hi Hne. by apply dict_update_lookup_ne.
  - exists (set_participants f a). by rewrite dict_get_update_eq, Hget.
Qed.

(** * Signup and unregister *)

(** C1: signing up an email that is not yet on the list of an existing
    activity succeeds and puts the email at the end of that list, whatever
    [max_participants] is: a list that is already full grows past it. *)
Theorem signup_appends_without_capacity_check activity_name email reg a :
  dict_get activity_name reg = Some a →
  email ∉ participants a →
  ∃ reg' a',
    signup_for_activity activity_name email reg
    = (inr {| message := "Signed up " +:+ email +:+ " for " +:+ activity_name |}, reg')
    ∧ dict_get activity_name reg' = Some a'
    ∧ participants a' = participants a ++ [email]
    ∧ ((max_participants a ≤ Z.of_nat (length (participants a)))%Z →
       (max_participants a < Z.of_nat (length (participants a')))%Z).
Proof.
  intros Hget Hnew.
  destruct (dict_update_frame activity_name (list_append email) reg a Hget)
    as (_ & _ & _ & a' & Ha' & _ & _ & _ & Hp).
  exists (dict_update activity_name (set_participants (list_append email)) reg), a'.
  split_and!; [| done | done |].
  - rewrite signup_eval, Hget.
    by apply list_contains_false in Hnew as ->.
  - rewrite Hp. unfold list_append. rewrite length_app. simpl. lia.
Qed.

Lemma signup_appends_without_capacity_check_witness :
  ∃ reg' a',
    signup_for_activity "Chess Club" "new@mergington.edu" crowded
    = (inr {| message := "Signed up new@mergington.edu for Chess Club" |}, reg')
    ∧ dict_get "Chess Club" reg' = Some a'
    ∧ participants a'
      = ["michael@mergington.edu"; "daniel@mergington.edu"; "new@mergington.edu"]
    ∧ ((1 ≤ 2)%Z → (1 < Z.of_nat (length (participants a')))%Z).
Proof.
  refine (signup_appends_without_capacity_check "Chess Club" "new@mergington.edu" crowded
            {| description := "Learn strategies and compete in chess tournaments";
               schedule := "Fridays, 3:30 PM - 5:00 PM";
               max_participants := 1;
               participants := ["michael@mergington.edu"; "daniel@mergington.edu"] |} _ _).
  - reflexivity.
  - apply list_contains_false. reflexivity.
Defined.

(** C2: for an existing activity and an email not on its list, signup
    followed by unregister with the same email both succeed and leave the
    participants list (indeed the whole registry) as it was. *)
Theorem signup_then_unregister_restores activity_name email reg a :
  dict_get activity_name reg = Some a →
  email ∉ participants a →
  ∃ r1 reg1 r2 reg2,
    signup_for_activity activity_name email reg = (inr r1, reg1)
    ∧ unregister_from_activity activity_name email reg1 = (inr r2, reg2)
    ∧ participants <$> dict_get activity_name reg2 = Some (participants a)
    ∧ reg2 = reg.
Proof.
  intros Hget Hnew.
  eexists _, _, _, reg. split_and!.
  - rewrite signup_eval, Hget.
    by apply list_contains_false in Hnew as ->.
  - rewrite unregister_eval, dict_get_update_eq, Hget. simpl.
    rewrite list_remove_append by done.
    rewrite dict_update_update.
    erewrite (dict_update_id _ _ reg a); [reflexivity | done | by destruct a].
  - by rewrite Hget.
  - done.
Qed.

Lemma signup_then_unregister_restores_witness :
  ∃ r1 reg1 r2 reg2,
    signup_for_activity "Math Club" "new@mergington.edu" activities = (inr r1, reg1)
    ∧ unregister_from_activity "Math Club" "new@mergington.edu" reg1 = (inr r2, reg2)
    ∧ participants <$> dict_get "Math Club" reg2
      = Some ["james@mergington.edu"; "benjamin@mergington.edu"]
    ∧ reg2 = activities.
Proof.
  refine (signup_then_unregister_restores "Math Club" "new@mergington.edu" activities
            {| description := "Solve challenging problems and participate in math competitions";
               schedule := "Tuesdays, 3:30 PM - 4:30 PM";
               max_participants := 10;
               participants := ["james@mergington.edu"; "benjamin@mergington.edu"] |} _ _).
  - reflexivity.
  - apply list_contains_false. reflexivity.
Defined.

(** C3: signing up an email that is already on the list of an existing
    activity raises HTTP 400 "Student is already signed up" and leaves the
    registry as it was. *)
Theorem signup_already_registered activity_name email reg a :
  dict_get activity_name reg = Some a →
  email ∈ participants a →
  signup_for_activity activity_name email reg
  = (inl (HTTPException 400 "Student is already signed up"), reg).
Proof.
  intros Hget Hin. rewrite signup_eval, Hget.
  by apply list_contains_true in Hin as ->.
Qed.

Lemma signup_already_registered_witness :
  signup_for_activity "Art Club" "harper@mergington.edu" activities
  = (inl (HTTPException 400 "Student is already signed up"), activities).
Proof.
  refine (signup_already_registered "Art Club" "harper@mergington.edu" activities
            {| description := "Explore your creativity through painting and drawing";
               schedule := "Thursdays, 3:30 PM - 5:00 PM";
               max_participants := 15;
               participants := ["amelia@mergington.edu"; "harper@mergington.edu"] |} _ _).
  - reflexivity.
  - apply list_contains_true. reflexivity.
Defined.

(** C4: unregistering an email that is not on the list of an existing
    activity raises HTTP 400 "Student is not signed up for this activity" and
    leaves the registry as it was. *)
Theorem unregister_not_registered activity_name email reg a :
  dict_get activity_name reg = Some a →
  email ∉ participants a →
  unregister_from_activity activity_name email reg
  = (inl (HTTPException 400 "Student is not signed up for this activity"), reg).
Proof.
  intros Hget Hnot. rewrite unregister_eval, Hget.
  by apply list_remove_None in Hnot as ->.
Qed.

Lemma unregister_not_registered_witness :
  unregister_from_activity "Art Club" "nobody@mergington.edu" activities
  = (inl (HTTPException 400 "Student is not signed up for this activity"), activities).
Proof.
  refine (unregister_not_registered "Art Club" "nobody@mergington.edu" activities
            {| description := "Explore your creativity through painting and drawing";
               schedule := "Thursdays, 3:30 PM - 5:00 PM";
               max_participants := 15;
               participants := ["amelia@mergington.edu"; "harper@mergington.edu"] |} _ _).
  - reflexivity.
  - apply list_contains_false. reflexivity.
Defined.

(** C5: for a name that is not a key of the registry, signup and unregister
    both raise HTTP 404 "Activity not found", whatever the email, and leave
    the registry as it was. *)
Theorem unknown_activity_not_found activity_name email reg :
  activity_name ∉ reg.*1 →
  signup_for_activity activity_name email reg
  = (inl (HTTPException 404 "Activity not found"), reg)
  ∧ unregister_from_activity activity_name email reg
    = (inl (HTTPException 404 "Activity not found"), reg).
Proof.
  intros Hnot%dict_get_None.
  by rewrite signup_eval, unregister_eval, Hnot.
Qed.

Lemma unknown_activity_not_found_witness :
  signup_for_activity "Knitting" "michael@mergington.edu" activities
  = (inl (HTTPException 404 "Activity not found"), activities)
  ∧ unregister_from_activity "Knitting" "michael@mergington.edu" activities
    = (inl (HTTPException 404 "Activity not found"), activities).
Proof.
  apply (unknown_activity_not_found "Knitting" "michael@mergington.edu" activities).
  apply dict_get_None. reflexivity.
Defined.

(** C10: a successful signup or unregister on [activity_name] keeps the keys
    of the registry and their order, leaves every entry under another name
    as it was, and keeps the description, schedule and capacity of the
    activity it writes to. *)
Theorem successful_write_frame activity_name email reg r reg' :
  signup_for_activity activity_name email reg = (inr r, reg')
  ∨ unregister_from_activity activity_name email reg = (inr r, reg') →
  reg'.*1 = reg.*1
  ∧ (∀ other, other ≠ activity_name → dict_get other reg' = dict_get other reg)
  ∧ (∀ (i : nat) k b,
       reg !! i = Some (k, b) → k ≠ activity_name → reg' !! i = Some (k, b))
  ∧ ∃ a a',
      dict_get activity_name reg = Some a
      ∧ dict_get activity_name reg' = Some a'
      ∧ description a' = description a
      ∧ schedule a' = schedule a
      ∧ max_participants a' = max_participants a.
Proof.
  rewrite signup_eval, unregister_eval.
  destruct (dict_get activity_name reg) as [a|] eqn:Hget; [|by intros [|]].
  intros [H|H].
  - destruct (list_contains email (participants a)); simplify_eq.
    destruct (dict_update_frame activity_name (list_append email) reg a Hget)
      as (? & ? & ? & a' & ? & ? & ? & ? & _).
    split_and!; [done..|]. by exists a, a'.
  - destruct (list_remove email (participants a)) as [lst|]; simplify_eq.
    destruct (dict_update_frame activity_name (λ _, lst) reg a Hget)
      as (? & ? & ? & a' & ? & ? & ? & ? & _).
    split_and!; [done..|]. by exists a, a'.
Qed.

Lemma successful_write_frame_witness :
  let reg' := (unregister_from_activity "Gym Class" "john@mergington.edu" activities).2 in
  reg'.*1 = activities.*1
  ∧ (∀ other, other ≠ "Gym Class" → dict_get other reg' = dict_get other activities)
  ∧ (∀ (i : nat) k b,
       activities !! i = Some (k, b) → k ≠ "Gym Class" → reg' !! i = Some (k, b))
  ∧ ∃ a a',
      dict_get "Gym Class" activities = Some a
      ∧ dict_get "Gym Class" reg' = Some a'
      ∧ description a' = description a
      ∧ schedule a' = schedule a
      ∧ max_participants a' = max_participants a.
Proof.
  apply (successful_write_frame "Gym Class" "john@mergington.edu" activities
           {| message := "Unregistered john@mergington.edu from Gym Class" |}).
  right. reflexivity.
Defined.

(** * Reachable registries keep the participants lists duplicate-free *)

Lemma no_duplicates_update name f reg :
  no_duplicates reg →
  (∀ a, dict_get name reg = Some a → NoDup (participants a) → NoDup (f (participants a))) →
  no_duplicates (dict_update name (set_participants f) reg).
Proof.
  unfold no_duplicates. induction 1 as [|[k a] rest Ha Hrest IH]; simpl.
  - constructor.
  - destruct (String.eqb k name); intros Hf; constructor; simpl; auto.
Qed.

Lemma no_duplicates_get name reg a :
  no_duplicates reg → dict_get name reg = Some a → NoDup (participants a).
Proof.
  unfold no_duplicates. induction 1 as [|[k b] rest Hb Hrest IH]; simpl; [done|].
  destruct (String.eqb k name); [by intros [= <-] | done].
Qed.

Lemma handle_no_duplicates req reg :
  no_duplicates reg → no_duplicates (handle req reg).2.
Proof.
  intros Hreg. destruct req as [name email|name email]; simpl.
  - rewrite signup_eval. destruct (dict_get name reg) as [a|] eqn:Hget; [|done].
    destruct (list_contains email (participants a)) eqn:Hin; [done|]. simpl.
    apply no_duplicates_update; [done|]. intros b Hb Hnd. simplify_eq.
    apply list_contains_false in Hin. unfold list_append.
    apply NoDup_app. split_and!; [done | | apply NoDup_singleton].
    intros x Hx ->%list_elem_of_singleton. done.
  - rewrite unregister_eval. destruct (dict_get name reg) as [a|] eqn:Hget; [|done].
    destruct (list_remove email (participants a)) as [lst|] eqn:Hrm; [|done]. simpl.
    apply no_duplicates_update; [done|]. intros b Hb Hnd. simplify_eq.
    eapply sublist_NoDup; [done | by eapply list_remove_sublist].
Qed.

Lemma run_no_duplicates reqs reg :
  no_duplicates reg → no_duplicates (run reqs reg).
Proof.
  unfold run. revert reg. induction reqs as [|req reqs IH]; intros reg Hreg; simpl; [done|].
  by apply IH, handle_no_duplicates.
Qed.

Lemma activities_no_duplicates : no_duplicates activities.
Proof.
  unfold no_duplicates, activities.
  repeat (apply Forall_cons; split;
          [simpl; apply NoDup_cons; split;
           [by apply list_contains_false | apply NoDup_singleton] |]).
  constructor.
Qed.

(** No request adds, removes or reorders a key of the registry. *)
Lemma run_keys reqs reg : (run reqs reg).*1 = reg.*1.
Proof.
  unfold run. revert reg. induction reqs as [|req reqs IH]; intros reg; simpl; [done|].
  rewrite IH. destruct req as [name email|name email]; simpl.
  - rewrite signup_eval. destruct (dict_get name reg) as [a|]; [|done].
    destruct (list_contains email (participants a)); [done | apply dict_update_keys].
  - rewrite unregister_eval. destruct (dict_get name reg) as [a|]; [|done].
    destruct (list_remove email (participants a)); [apply dict_update_keys | done].
Qed.

(** C8: whatever requests have been served since start-up, in whatever
    order and with whatever outcome, no participants list of the registry
    holds an email twice. *)
Theorem reachable_no_duplicates reqs : no_duplicates (run reqs activities).
Proof. apply run_no_duplicates, activities_no_duplicates. Qed.

(** * Reports *)

Lemma report_loop (reg : registry) (init : list Report.entry) :
  fold_left (λ report '(name, details), report ++ [report_entry name details]) reg init
  = init ++ ((λ item, report_entry item.1 item.2) <$> reg).
Proof.
  revert init. induction reg as [|[name details] rest IH]; intros init; simpl.
  - by rewrite app_nil_r.
  - by rewrite IH, <-app_assoc.
Qed.

Lemma report_activities reg :
  Report.activities (get_reports reg) = (λ item, report_entry item.1 item.2) <$> reg.
Proof. unfold get_reports, dict_items. simpl. by rewrite report_loop. Qed.

Lemma py_sum_from (xs : list nat) (acc : nat) :
  fold_left Nat.add xs acc = (acc + py_sum xs)%nat.
Proof.
  unfold py_sum. revert acc. induction xs as [|x xs IH]; intros acc; simpl; [lia|].
  rewrite (IH (acc + x)%nat), (IH x). lia.
Qed.

Lemma py_sum_cons x xs : py_sum (x :: xs) = (x + py_sum xs)%nat.
Proof. unfold py_sum at 1. simpl. apply py_sum_from. Qed.

(** C6: in every report the total of the summary is the sum of the
    [participants_count] fields of the entries, each of which is the length of
    the participants list of the activity the entry was made from. *)
Theorem total_participants_is_sum_of_counts reg :
  Report.total_participants (Report.summary (get_reports reg))
  = py_sum (Report.participants_count <$> Report.activities (get_reports reg))
  ∧ Forall2 (λ '(name, a) entry,
               Report.activity entry = name
               ∧ Report.participants_count entry = length (participants a))
      reg (Report.activities (get_reports reg)).
Proof.
  rewrite report_activities. split.
  - simpl. unfold dict_values. f_equal.
    rewrite <-!list_fmap_compose. by apply list_fmap_ext.
  - apply Forall2_fmap_r, Forall_Forall2_diag, Forall_forall.
    by intros [name a] _.
Qed.

Lemma bind_singletons (l : list string) : (email ← l; [email]) = l.
Proof. induction l as [|x l IH]; [done|]. rewrite bind_cons, IH. done. Qed.

Lemma enrolled_emails_cons name a reg :
  enrolled_emails ((name, a) :: reg) = participants a ++ enrolled_emails reg.
Proof.
  unfold enrolled_emails, dict_values. simpl map.
  by rewrite bind_cons, bind_singletons.
Qed.

Lemma total_participants_length reg :
  Report.total_participants (Report.summary (get_reports reg))
  = length (enrolled_emails reg).
Proof.
  simpl. induction reg as [|[name a] rest IH]; [done|].
  rewrite enrolled_emails_cons, length_app, <-IH.
  unfold dict_values. simpl. apply py_sum_cons.
Qed.

Lemma elem_of_enrolled_emails email reg :
  email ∈ enrolled_emails reg
  ↔ ∃ (i : nat) name a, reg !! i = Some (name, a) ∧ email ∈ participants a.
Proof.
  induction reg as [|[name a] rest IH].
  - split; [by intros ?%elem_of_nil | by intros (i & ? & ? & ? & _)].
  - rewrite enrolled_emails_cons, elem_of_app, IH. split.
    + intros [Hin|(i & n & b & Hi & Hin)]; [by exists 0%nat, name, a|].
      by exists (S i), n, b.
    + intros ([|i] & n & b & Hi & Hin); simpl in Hi; [left; by simplify_eq|].
      right. by exists i, n, b.
Qed.

Lemma size_list_to_set_length (l : list string) :
  (size (list_to_set l : gset string) ≤ length l)%nat
  ∧ (size (list_to_set l : gset string) = length l → NoDup l).
Proof.
  induction l as [|x l [IHle IHeq]].
  - rewrite list_to_set_nil, size_empty. split; [done | intros _; constructor].
  - rewrite list_to_set_cons. simpl length.
    destruct (decide (x ∈ l)) as [Hin|Hnot].
    + rewrite subseteq_union_1_L
        by (by apply singleton_subseteq_l, elem_of_list_to_set).
      split; lia.
    + rewrite size_union, size_singleton by set_solver.
      split; [lia|]. intros Heq. apply NoDup_cons. split; [done|]. apply IHeq. lia.
Qed.

Lemma shared_email_tail item reg : shared_email reg → shared_email (item :: reg).
Proof.
  intros (i & j & n1 & n2 & a1 & a2 & email & Hne & Hi & Hj & H1 & H2).
  exists (S i), (S j), n1, n2, a1, a2, email. split_and!; auto.
Qed.

Lemma NoDup_enrolled_emails reg :
  no_duplicates reg → NoDup (enrolled_emails reg) ↔ ¬ shared_email reg.
Proof.
  unfold no_duplicates. induction 1 as [|[name a] rest Ha Hrest IH].
  - split; [|intros _; constructor].
    by intros _ (i & ? & ? & ? & ? & ? & ? & _ & ? & _).
  - rewrite enrolled_emails_cons, NoDup_app, IH. split.
    + intros (_ & Hdisj & Hno) (i & j & n1 & n2 & a1 & a2 & email & Hne & Hi & Hj & H1 & H2).
      destruct i as [|i], j as [|j]; simpl in *; simplify_eq.
      * apply (Hdisj email H1), elem_of_enrolled_emails. by exists j, n2, a2.
      * apply (Hdisj email H2), elem_of_enrolled_emails. by exists i, n1, a1.
      * apply Hno. exists i, j, n1, n2, a1, a2, email. split_and!; auto.
    + intros Hno. split_and!; [done | |].
      * intros email H1 (j & n2 & a2 & Hj & H2)%elem_of_enrolled_emails.
        apply Hno. by exists 0%nat, (S j), name, n2, a, a2, email.
      * intros Hsh. by apply Hno, shared_email_tail.
Qed.

(** C7: in the report of a registry whose participants lists are
    duplicate-free, the number of unique users is at most the total number of
    participants, and the two are equal exactly when no email is on the lists
    of two different activities. *)
Theorem unique_users_le_total_participants reg :
  no_duplicates reg →
  (Report.unique_users (Report.summary (get_reports reg))
   ≤ Report.total_participants (Report.summary (get_reports reg)))%nat
  ∧ (Report.unique_users (Report.summary (get_reports reg))
     = Report.total_participants (Report.summary (get_reports reg))
     ↔ ¬ shared_email reg).
Proof.
  intros Hreg. rewrite total_participants_length. simpl Report.unique_users.
  destruct (size_list_to_set_length (enrolled_emails reg)) as [Hle Heq].
  split; [done|]. rewrite <-NoDup_enrolled_emails by done.
  split; [done|]. apply size_list_to_set.
Qed.

Lemma unique_users_le_total_participants_witness :
  (Report.unique_users (Report.summary (get_reports activities))
   ≤ Report.total_participants (Report.summary (get_reports activities)))%nat
  ∧ (Report.unique_users (Report.summary (get_reports activities))
     = Report.total_participants (Report.summary (get_reports activities))
     ↔ ¬ shared_email activities).
Proof.
  apply (unique_users_le_total_participants activities).
  apply activities_no_duplicates.
Defined.

(** * CSV export *)

Lemma csv_loop (writerow : list csv_value → string) (report : list Report.entry) init :
  fold_left (λ output r, output +:+ writerow (csv_row r)) report init
  = fold_left (λ output row, output +:+ writerow row) (csv_row <$> report) init.
Proof.
  revert init. induction report as [|r report IH]; intros init; simpl; [done|].
  apply IH.
Qed.

(** C9: the CSV export writes the header row [Activity, Participants Count,
    Max Participants, Participants] and then one row per activity, in the
    order of the registry; the row of an activity holds its name, the length
    of its participants list, its capacity and its participants joined by
    [", "]. *)
Theorem csv_export_rows writerow FPDF_AVAILABLE pdf_output reg :
  ∃ rows : list (list csv_value),
    export_reports writerow FPDF_AVAILABLE pdf_output "csv" reg
    = inr {| content :=
               write_rows writerow
                 ([CsvStr "Activity"; CsvStr "Participants Count";
                   CsvStr "Max Participants"; CsvStr "Participants"] :: rows);
             media_type := "text/csv";
             headers := [("Content-Disposition", "attachment; filename=report.csv")] |}
    ∧ length rows = length reg
    ∧ ∀ (i : nat) name a,
        reg !! i = Some (name, a) →
        rows !! i = Some [CsvStr name;
                          CsvInt (Z.of_nat (length (participants a)));
                          CsvInt (max_participants a);
                          CsvStr (str_join ", " (participants a))].
Proof.
  exists ((λ item, csv_row (report_entry item.1 item.2)) <$> reg). split_and!.
  - unfold export_reports, write_rows.
    rewrite report_activities, csv_loop, <-list_fmap_compose. done.
  - by rewrite length_fmap.
  - intros i name a Hi. by rewrite list_lookup_fmap, Hi.
Qed.

(** * Further properties of signup and unregister *)

Lemma list_remove_middle email (l1 l2 : list string) :
  email ∉ l1 → list_remove email (l1 ++ email :: l2) = Some (l1 ++ l2).
Proof.
  induction l1 as [|x l1 IH]; simpl; intros Hnot.
  - by rewrite String.eqb_refl.
  - apply not_elem_of_cons in Hnot as [Hne Hnot].
    destruct (String.eqb_spec x email) as [->|_]; [done|].
    by rewrite IH.
Qed.

Lemma list_remove_split email lst lst' :
  list_remove email lst = Some lst' →
  ∃ l1 l2, lst = l1 ++ email :: l2 ∧ (email ∉ l1) ∧ lst' = l1 ++ l2.
Proof.
  revert lst'. induction lst as [|x rest IH]; intros lst'; simpl; [done|].
  destruct (String.eqb_spec x email) as [->|Hne].
  - intros [= <-]. exists [], rest. split_and!; [done | apply not_elem_of_nil | done].
  - destruct (list_remove email rest) as [l|]; simpl; [|done]. intros [= <-].
    destruct (IH l eq_refl) as (l1 & l2 & -> & Hnot & ->).
    exists (x :: l1), l2. split_and!; [done | | done].
    apply not_elem_of_cons. by split.
Qed.

(** X1: whenever signup or unregister raises, the exception is one of the
    three HTTP errors (never the [KeyError] of the dict access or the
    [ValueError] of [list.remove]) and the registry is left as it was. *)
Theorem handle_failure req reg e reg' :
  handle req reg = (inl e, reg') →
  reg' = reg
  ∧ (e = HTTPException 404 "Activity not found"
     ∨ e = HTTPException 400 "Student is already signed up"
     ∨ e = HTTPException 400 "Student is not signed up for this activity").
Proof.
  destruct req as [name email|name email]; simpl.
  - rewrite signup_eval. destruct (dict_get name reg) as [a|].
    + destruct (list_contains email (participants a)); intros [= <- <-]; auto.
    + intros [= <- <-]; auto.
  - rewrite unregister_eval. destruct (dict_get name reg) as [a|].
    + destruct (list_remove email (participants a)); intros [= <- <-]; auto.
    + intros [= <- <-]; auto.
Qed.

Lemma handle_failure_witness :
  activities = activities
  ∧ (HTTPException 400 "Student is not signed up for this activity"
     = HTTPException 404 "Activity not found"
     ∨ HTTPException 400 "Student is not signed up for this activity"
       = HTTPException 400 "Student is already signed up"
     ∨ HTTPException 400 "Student is not signed up for this activity"
       = HTTPException 400 "Student is not signed up for this activity").
Proof.
  apply (handle_failure (Unregister "Drama Club" "liam@mergington.edu") activities).
  reflexivity.
Defined.

(** X2: signup succeeds exactly when the activity exists and the email is
    not yet on its list. *)
Theorem signup_succeeds_iff activity_name email reg :
  (∃ r reg', signup_for_activity activity_name email reg = (inr r, reg'))
  ↔ ∃ a, dict_get activity_name reg = Some a ∧ email ∉ participants a.
Proof.
  rewrite signup_eval. destruct (dict_get activity_name reg) as [a|].
  - destruct (list_contains email (participants a)) eqn:Hin.
    + apply list_contains_true in Hin. split; [by intros (? & ? & ?)|].
      by intros (? & [= <-] & ?).
    + apply list_contains_false in Hin. split; [by exists a | by eexists _, _].
  - split; [by intros (? & ? & ?) | by intros (? & ? & _)].
Qed.

(** X3: unregister succeeds exactly when the activity exists and the email
    is on its list. *)
Theorem unregister_succeeds_iff activity_name email reg :
  (∃ r reg', unregister_from_activity activity_name email reg = (inr r, reg'))
  ↔ ∃ a, dict_get activity_name reg = Some a ∧ email ∈ participants a.
Proof.
  rewrite unregister_eval. destruct (dict_get activity_name reg) as [a|].
  - destruct (list_remove email (participants a)) as [lst|] eqn:Hrm.
    + split; [|by eexists _, _]. intros _. exists a. split; [done|].
      apply dec_stable. intros Hnot%list_remove_None. congruence.
    + apply list_remove_None in Hrm. split; [by intros (? & ? & ?)|].
      by intros (? & [= <-] & ?).
  - split; [by intros (? & ? & ?) | by intros (? & ? & _)].
Qed.

(** X4: a signup that succeeded cannot be repeated: the same request on the
    resulting registry raises HTTP 400 and changes nothing. *)
Theorem signup_twice_rejected activity_name email reg r reg' :
  signup_for_activity activity_name email reg = (inr r, reg') →
  signup_for_activity activity_name email reg'
  = (inl (HTTPException 400 "Student is already signed up"), reg').
Proof.
  rewrite signup_eval. destruct (dict_get activity_name reg) as [a|] eqn:Hget; [|done].
  destruct (list_contains email (participants a)); [done|]. intros [= _ <-].
  rewrite signup_eval, dict_get_update_eq, Hget. simpl.
  assert (list_contains email (list_append email (participants a)) = true) as ->; [|done].
  apply list_contains_true, elem_of_app. right. by apply list_elem_of_singleton.
Qed.

Lemma signup_twice_rejected_witness :
  signup_for_activity "Chess Club" "new@mergington.edu"
    (signup_for_activity "Chess Club" "new@mergington.edu" activities).2
  = (inl (HTTPException 400 "Student is already signed up"),
     (signup_for_activity "Chess Club" "new@mergington.edu" activities).2).
Proof.
  apply (signup_twice_rejected "Chess Club" "new@mergington.edu" activities
           {| message := "Signed up new@mergington.edu for Chess Club" |}).
  reflexivity.
Defined.

(** X5: a successful unregister removes the first occurrence of the email
    from the list of the activity and keeps the other participants in their
    order. *)
Theorem unregister_removes_first_occurrence activity_name email reg r reg' :
  unregister_from_activity activity_name email reg = (inr r, reg') →
  ∃ a l1 l2,
    dict_get activity_name reg = Some a
    ∧ participants a = l1 ++ email :: l2
    ∧ (email ∉ l1)
    ∧ participants <$> dict_get activity_name reg' = Some (l1 ++ l2).
Proof.
  rewrite unregister_eval. destruct (dict_get activity_name reg) as [a|] eqn:Hget; [|done].
  destruct (list_remove email (participants a)) as [lst|] eqn:Hrm; [|done].
  intros [= _ <-]. apply list_remove_split in Hrm as (l1 & l2 & Hp & Hnot & ->).
  exists a, l1, l2. split_and!; [done..|].
  by rewrite dict_get_update_eq, Hget.
Qed.

Lemma unregister_removes_first_occurrence_witness :
  ∃ a l1 l2,
    dict_get "Chess Club" activities = Some a
    ∧ participants a = l1 ++ "daniel@mergington.edu" :: l2
    ∧ ("daniel@mergington.edu" ∉ l1)
    ∧ participants
        <$> dict_get "Chess Club"
              (unregister_from_activity "Chess Club" "daniel@mergington.edu" activities).2
      = Some (l1 ++ l2).
Proof.
  apply (unregister_removes_first_occurrence "Chess Club" "daniel@mergington.edu" activities
           {| message := "Unregistered daniel@mergington.edu from Chess Club" |}).
  reflexivity.
Defined.

(** X6: after a successful unregister from a list without duplicates the
    email is off the list, so the same request on the resulting registry
    raises HTTP 400 and changes nothing. *)
Theorem unregister_twice_rejected activity_name email reg a r reg' :
  dict_get activity_name reg = Some a →
  NoDup (participants a) →
  unregister_from_activity activity_name email reg = (inr r, reg') →
  (∀ a', dict_get activity_name reg' = Some a' → email ∉ participants a')
  ∧ unregister_from_activity activity_name email reg'
    = (inl (HTTPException 400 "Student is not signed up for this activity"), reg').
Proof.
  intros Hget Hnd. rewrite unregister_eval, Hget.
  destruct (list_remove email (participants a)) as [lst|] eqn:Hrm; [|done].
  intros [= _ <-]. apply list_remove_split in Hrm as (l1 & l2 & Hp & Hnot & ->).
  assert (email ∉ l1 ++ l2) as Hgone.
  { rewrite Hp in Hnd. apply NoDup_app in Hnd as (_ & _ & [Hl2 _]%NoDup_cons).
    by intros [?|?]%elem_of_app. }
  split.
  - intros a'. rewrite dict_get_update_eq, Hget. by intros [= <-].
  - rewrite unregister_eval, dict_get_update_eq, Hget. simpl.
    by apply list_remove_None in Hgone as ->.
Qed.

Lemma unregister_twice_rejected_witness :
  (∀ a', dict_get "Art Club"
           (unregister_from_activity "Art Club" "amelia@mergington.edu" activities).2
         = Some a' → "amelia@mergington.edu" ∉ participants a')
  ∧ unregister_from_activity "Art Club" "amelia@mergington.edu"
      (unregister_from_activity "Art Club" "amelia@mergington.edu" activities).2
    = (inl (HTTPException 400 "Student is not signed up for this activity"),
       (unregister_from_activity "Art Club" "amelia@mergington.edu" activities).2).
Proof.
  refine (unregister_twice_rejected "Art Club" "amelia@mergington.edu" activities
            {| description := "Explore your creativity through painting and drawing";
               schedule := "Thursdays, 3:30 PM - 5:00 PM";
               max_participants := 15;
               participants := ["amelia@mergington.edu"; "harper@mergington.edu"] |}
            {| message := "Unregistered amelia@mergington.edu from Art Club" |} _ _ _ _).
  - reflexivity.
  - apply (no_duplicates_get "Art Club" activities); [apply activities_no_duplicates|].
    reflexivity.
  - reflexivity.
Defined.

(** X7: on a list without duplicates, unregister followed by signup of the
    same email both succeed; the activity ends with the same participants,
    the email now being the last of them. *)
Theorem unregister_then_signup_moves_last activity_name email reg a :
  dict_get activity_name reg = Some a →
  NoDup (participants a) →
  email ∈ participants a →
  ∃ r1 reg1 r2 reg2 a2,
    unregister_from_activity activity_name email reg = (inr r1, reg1)
    ∧ signup_for_activity activity_name email reg1 = (inr r2, reg2)
    ∧ dict_get activity_name reg2 = Some a2
    ∧ participants a2 ≡ₚ participants a
    ∧ last (participants a2) = Some email.
Proof.
  intros Hget Hnd Hin.
  destruct (list_remove email (participants a)) as [lst|] eqn:Hrm;
    [|by apply list_remove_None in Hrm].
  destruct (list_remove_split _ _ _ Hrm) as (l1 & l2 & Hp & Hnot & ->).
  assert (email ∉ l1 ++ l2) as Hgone.
  { rewrite Hp in Hnd. apply NoDup_app in Hnd as (_ & _ & [Hl2 _]%NoDup_cons).
    by intros [?|?]%elem_of_app. }
  eexists _, _, _, _, _. split_and!.
  - by rewrite unregister_eval, Hget, Hrm.
  - rewrite signup_eval, dict_get_update_eq, Hget. simpl.
    by apply list_contains_false in Hgone as ->.
  - by rewrite !dict_get_update_eq, Hget.
  - simpl. unfold list_append. rewrite Hp.
    transitivity (email :: (l1 ++ l2));
      [symmetry; apply Permutation_cons_append | apply Permutation_middle].
  - simpl. unfold list_append. apply last_snoc.
Qed.

Lemma unregister_then_signup_moves_last_witness :
  ∃ r1 reg1 r2 reg2 a2,
    unregister_from_activity "Gym Class" "john@mergington.edu" activities = (inr r1, reg1)
    ∧ signup_for_activity "Gym Class" "john@mergington.edu" reg1 = (inr r2, reg2)
    ∧ dict_get "Gym Class" reg2 = Some a2
    ∧ participants a2 ≡ₚ ["john@mergington.edu"; "olivia@mergington.edu"]
    ∧ last (participants a2) = Some "john@mergington.edu".
Proof.
  refine (unregister_then_signup_moves_last "Gym Class" "john@mergington.edu" activities
            {| description := "Physical education and sports activities";
               schedule := "Mondays, Wednesdays, Fridays, 2:00 PM - 3:00 PM";
               max_participants := 30;
               participants := ["john@mergington.edu"; "olivia@mergington.edu"] |} _ _ _).
  - reflexivity.
  - apply (no_duplicates_get "Gym Class" activities); [apply activities_no_duplicates|].
    reflexivity.
  - apply list_contains_true. reflexivity.
Defined.

(** * Runs of requests *)

Lemma dict_update_participants_same name f reg :
  Forall2 same_activity reg (dict_update name (set_participants f) reg).
Proof.
  induction reg as [|[k a] rest IH]; simpl; [constructor|].
  destruct (String.eqb k name); constructor; try done.
  apply Forall_Forall2_diag, Forall_forall. by intros [??] _.
Qed.

Lemma same_activity_refl reg : Forall2 same_activity reg reg.
Proof. apply Forall_Forall2_diag, Forall_forall. by intros [??] _. Qed.

Lemma handle_same_activity req reg : Forall2 same_activity reg (handle req reg).2.
Proof.
  destruct req as [name email|name email]; simpl.
  - rewrite signup_eval. destruct (dict_get name reg) as [a|]; [|apply same_activity_refl].
    destruct (list_contains email (participants a)); [apply same_activity_refl|].
    apply dict_update_participants_same.
  - rewrite unregister_eval. destruct (dict_get name reg) as [a|]; [|apply same_activity_refl].
    destruct (list_remove email (participants a)); [|apply same_activity_refl].
    apply dict_update_participants_same.
Qed.

(** X8: no sequence of signup and unregister requests adds, removes,
    renames or reorders an activity, or changes a description, a schedule or
    a capacity: item by item, the registry after the run has the keys and
    these three fields of the registry before it. *)
Theorem run_keeps_activities reqs reg : Forall2 same_activity reg (run reqs reg).
Proof.
  unfold run. revert reg. induction reqs as [|req reqs IH]; intros reg; simpl.
  - apply same_activity_refl.
  - eapply Forall2_trans; [|apply handle_same_activity|apply IH].
    intros x y z (? & ? & ? & ?) (? & ? & ? & ?). unfold same_activity. split_and!; congruence.
Qed.

Lemma dict_update_id_fun name reg : dict_update name id reg = reg.
Proof.
  induction reg as [|[k a] rest IH]; simpl; [done|].
  destruct (String.eqb k name); [done | by rewrite IH].
Qed.

Lemma dict_update_comm n1 n2 f g reg :
  n1 ≠ n2 →
  dict_update n1 f (dict_update n2 g reg) = dict_update n2 g (dict_update n1 f reg).
Proof.
  intros Hne. induction reg as [|[k a] rest IH]; simpl; [done|].
  destruct (String.eqb k n2) eqn:E2, (String.eqb k n1) eqn:E1; simpl;
    rewrite ?E1, ?E2; try done.
  - apply String.eqb_eq in E1, E2. congruence.
  - by rewrite IH.
Qed.

Lemma handle_state req reg :
  (handle req reg).2
  = dict_update (request_activity req)
      (request_effect req (dict_get (request_activity req) reg)) reg.
Proof.
  destruct req as [name email|name email]; simpl.
  - rewrite signup_eval. destruct (dict_get name reg) as [a|];
      [|by rewrite dict_update_id_fun].
    destruct (list_contains email (participants a)); [by rewrite dict_update_id_fun | done].
  - rewrite unregister_eval. destruct (dict_get name reg) as [a|];
      [|by rewrite dict_update_id_fun].
    destruct (list_remove email (participants a)); [done | by rewrite dict_update_id_fun].
Qed.

Lemma handle_result_local req reg reg' :
  dict_get (request_activity req) reg' = dict_get (request_activity req) reg →
  (handle req reg').1 = (handle req reg).1.
Proof.
  destruct req as [name email|name email]; simpl; intros Hget.
  - rewrite !signup_eval, Hget. destruct (dict_get name reg) as [a|]; [|done].
    by destruct (list_contains email (participants a)).
  - rewrite !unregister_eval, Hget. destruct (dict_get name reg) as [a|]; [|done].
    by destruct (list_remove email (participants a)).
Qed.

(** X9: two requests addressed to different activities can be served in
    either order: the registry after both is the same and each request gets
    the answer it would have got alone. *)
Theorem requests_on_different_activities_commute r1 r2 reg :
  request_activity r1 ≠ request_activity r2 →
  run [r1; r2] reg = run [r2; r1] reg
  ∧ (handle r1 (handle r2 reg).2).1 = (handle r1 reg).1
  ∧ (handle r2 (handle r1 reg).2).1 = (handle r2 reg).1.
Proof.
  intros Hne.
  assert (∀ ra rb, request_activity ra ≠ request_activity rb →
            dict_get (request_activity ra) (handle rb reg).2
            = dict_get (request_activity ra) reg) as Hget.
  { intros ra rb Hab. rewrite handle_state. by apply dict_get_update_ne. }
  split_and!.
  - unfold run. simpl. rewrite (handle_state r2), (handle_state r1 (handle r2 reg).2).
    rewrite !Hget by done. rewrite !handle_state.
    by apply dict_update_comm.
  - by apply handle_result_local, Hget.
  - by apply handle_result_local, Hget.
Qed.

Lemma requests_on_different_activities_commute_witness :
  run [Signup "Chess Club" "emma@mergington.edu";
       Unregister "Programming Class" "emma@mergington.edu"] activities
  = run [Unregister "Programming Class" "emma@mergington.edu";
         Signup "Chess Club" "emma@mergington.edu"] activities
  ∧ (handle (Signup "Chess Club" "emma@mergington.edu")
       (handle (Unregister "Programming Class" "emma@mergington.edu") activities).2).1
    = (handle (Signup "Chess Club" "emma@mergington.edu") activities).1
  ∧ (handle (Unregister "Programming Class" "emma@mergington.edu")
       (handle (Signup "Chess Club" "emma@mergington.edu") activities).2).1
    = (handle (Unregister "Programming Class" "emma@mergington.edu") activities).1.
Proof.
  apply (requests_on_different_activities_commute
           (Signup "Chess Club" "emma@mergington.edu")
           (Unregister "Programming Class" "emma@mergington.edu") activities).
  simpl. discriminate.
Defined.

(** * How a request changes the report *)

Lemma enrolled_emails_update name f reg a :
  dict_get name reg = Some a →
  ∃ pre post,
    enrolled_emails reg = pre ++ participants a ++ post
    ∧ enrolled_emails (dict_update name (set_participants f) reg)
      = pre ++ f (participants a) ++ post.
Proof.
  induction reg as [|[k b] rest IH]; simpl; [done|].
  destruct (String.eqb k name).
  - intros [= ->]. exists [], (enrolled_emails rest).
    by rewrite !enrolled_emails_cons.
  - intros (pre & post & Hold & Hnew)%IH.
    exists (participants b ++ pre), post.
    by rewrite !enrolled_emails_cons, Hold, Hnew, <-!app_assoc.
Qed.

Lemma dict_update_length name f reg : length (dict_update name f reg) = length reg.
Proof. by rewrite <-(length_fmap fst), dict_update_keys, length_fmap. Qed.

Lemma size_with_one_more email (old new : gset string) :
  new = {[email]} ∪ old →
  (email ∈ old → size new = size old) ∧ (email ∉ old → size new = S (size old)).
Proof.
  intros ->. split; intros He.
  - f_equal. by apply subseteq_union_1_L, singleton_subseteq_l.
  - rewrite size_union, size_singleton by (by apply disjoint_singleton_l). done.
Qed.

Lemma list_to_set_one_more email (old new : list string) :
  (∀ x, x ∈ new ↔ x = email ∨ x ∈ old) →
  list_to_set new = ({[email]} ∪ list_to_set old : gset string).
Proof.
  intros H. apply set_eq. intros x.
  rewrite elem_of_union, elem_of_singleton, !elem_of_list_to_set. apply H.
Qed.

(** X10: a successful signup leaves the number of activities of the report
    as it was and raises the total of participants by one; the number of
    unique users rises by one when the student was in no activity before and
    stays the same otherwise. *)
Theorem signup_report_summary activity_name email reg r reg' :
  signup_for_activity activity_name email reg = (inr r, reg') →
  Report.total_activities (Report.summary (get_reports reg'))
  = Report.total_activities (Report.summary (get_reports reg))
  ∧ Report.total_participants (Report.summary (get_reports reg'))
    = S (Report.total_participants (Report.summary (get_reports reg)))
  ∧ (email ∈ enrolled_emails reg →
     Report.unique_users (Report.summary (get_reports reg'))
     = Report.unique_users (Report.summary (get_reports reg)))
  ∧ (email ∉ enrolled_emails reg →
     Report.unique_users (Report.summary (get_reports reg'))
     = S (Report.unique_users (Report.summary (get_reports reg)))).
Proof.
  rewrite signup_eval. destruct (dict_get activity_name reg) as [a|] eqn:Hget; [|done].
  destruct (list_contains email (participants a)); [done|]. intros [= _ <-].
  destruct (enrolled_emails_update activity_name (list_append email) reg a Hget)
    as (pre & post & Hold & Hnew).
  rewrite !total_participants_length. simpl Report.total_activities.
  simpl Report.unique_users. rewrite <-!(elem_of_list_to_set (C:=gset string)).
  split; [apply dict_update_length|]. split.
  - rewrite Hnew, Hold. unfold list_append. rewrite !length_app. simpl. lia.
  - apply size_with_one_more, list_to_set_one_more. intros x.
    rewrite Hnew, Hold. unfold list_append.
    rewrite !elem_of_app, list_elem_of_singleton. tauto.
Qed.

Lemma signup_report_summary_witness :
  let reg' := (signup_for_activity "Math Club" "emma@mergington.edu" activities).2 in
  Report.total_activities (Report.summary (get_reports reg'))
  = Report.total_activities (Report.summary (get_reports activities))
  ∧ Report.total_participants (Report.summary (get_reports reg'))
    = S (Report.total_participants (Report.summary (get_reports activities)))
  ∧ ("emma@mergington.edu" ∈ enrolled_emails activities →
     Report.unique_users (Report.summary (get_reports reg'))
     = Report.unique_users (Report.summary (get_reports activities)))
  ∧ ("emma@mergington.edu" ∉ enrolled_emails activities →
     Report.unique_users (Report.summary (get_reports reg'))
     = S (Report.unique_users (Report.summary (get_reports activities)))).
Proof.
  apply (signup_report_summary "Math Club" "emma@mergington.edu" activities
           {| message := "Signed up emma@mergington.edu for Math Club" |}).
  reflexivity.
Defined.

(** X11: a successful unregister leaves the number of activities of the
    report as it was and lowers the total of participants by one; the number
    of unique users falls by one when the student is in no activity
    afterwards and stays the same otherwise. *)
Theorem unregister_report_summary activity_name email reg r reg' :
  unregister_from_activity activity_name email reg = (inr r, reg') →
  Report.total_activities (Report.summary (get_reports reg'))
  = Report.total_activities (Report.summary (get_reports reg))
  ∧ S (Report.total_participants (Report.summary (get_reports reg')))
    = Report.total_participants (Report.summary (get_reports reg))
  ∧ (email ∈ enrolled_emails reg' →
     Report.unique_users (Report.summary (get_reports reg'))
     = Report.unique_users (Report.summary (get_reports reg)))
  ∧ (email ∉ enrolled_emails reg' →
     S (Report.unique_users (Report.summary (get_reports reg')))
     = Report.unique_users (Report.summary (get_reports reg))).
Proof.
  rewrite unregister_eval. destruct (dict_get activity_name reg) as [a|] eqn:Hget; [|done].
  destruct (list_remove email (participants a)) as [lst|] eqn:Hrm; [|done].
  intros [= _ <-]. apply list_remove_split in Hrm as (l1 & l2 & Hp & _ & ->).
  destruct (enrolled_emails_update activity_name (λ _, l1 ++ l2) reg a Hget)
    as (pre & post & Hold & Hnew).
  rewrite !total_participants_length. simpl Report.total_activities.
  simpl Report.unique_users. rewrite <-!(elem_of_list_to_set (C:=gset string)).
  split; [apply dict_update_length|]. split.
  - rewrite Hnew, Hold, Hp. rewrite !length_app. simpl. lia.
  - assert (list_to_set (enrolled_emails reg)
            = {[email]} ∪ (list_to_set
                (enrolled_emails
                   (dict_update activity_name (set_participants (λ _, l1 ++ l2)) reg))
                : gset string)) as Hset.
    { apply list_to_set_one_more. intros x. rewrite Hnew, Hold, Hp.
      rewrite !elem_of_app, elem_of_cons. tauto. }
    destruct (size_with_one_more email _ _ Hset) as [Hin Hnot].
    split; intros H; [symmetry; by apply Hin | symmetry; by apply Hnot].
Qed.

Lemma unregister_report_summary_witness :
  let reg' := (unregister_from_activity "Math Club" "james@mergington.edu" activities).2 in
  Report.total_activities (Report.summary (get_reports reg'))
  = Report.total_activities (Report.summary (get_reports activities))
  ∧ S (Report.total_participants (Report.summary (get_reports reg')))
    = Report.total_participants (Report.summary (get_reports activities))
  ∧ ("james@mergington.edu" ∈ enrolled_emails reg' →
     Report.unique_users (Report.summary (get_reports reg'))
     = Report.unique_users (Report.summary (get_reports activities)))
  ∧ ("james@mergington.edu" ∉ enrolled_emails reg' →
     S (Report.unique_users (Report.summary (get_reports reg')))
     = Report.unique_users (Report.summary (get_reports activities))).
Proof.
  apply (unregister_report_summary "Math Club" "james@mergington.edu" activities
           {| message := "Unregistered james@mergington.edu from Math Club" |}).
  reflexivity.
Defined.

(** X12: in the report of any registry, also one whose lists name a
    student twice, the number of unique users is at most the total of
    participants, and one is zero exactly when the other is. *)
Theorem unique_users_bounds reg :
  (Report.unique_users (Report.summary (get_reports reg))
   ≤ Report.total_participants (Report.summary (get_reports reg)))%nat
  ∧ (Report.unique_users (Report.summary (get_reports reg)) = 0%nat
     ↔ Report.total_participants (Report.summary (get_reports reg)) = 0%nat).
Proof.
  rewrite total_participants_length. simpl Report.unique_users.
  destruct (size_list_to_set_length (enrolled_emails reg)) as [Hle _].
  split; [done|]. destruct (enrolled_emails reg) as [|x l]; [done|].
  split; [|done]. intros Hsize%size_empty_inv.
  destruct (not_elem_of_empty (C:=gset string) x). rewrite <-Hsize.
  apply elem_of_list_to_set. by left.
Qed.

(** * Export: formats and PDF *)




(** * The invariant does not depend on the start-up data *)

(** X15: from any registry whose participants lists are duplicate-free,
    every run of signup and unregister requests ends in a registry whose
    lists are duplicate-free. *)
Theorem run_keeps_no_duplicates reqs reg :
  no_duplicates reg → no_duplicates (run reqs reg).
Proof.
  revert reg. induction reqs as [|req reqs IH]; intros reg Hreg; [done|].
  apply (IH (handle req reg).2), handle_no_duplicates, Hreg.
Qed.

Lemma run_keeps_no_duplicates_witness :
  no_duplicates
    (run [Signup "Chess Club" "emma@mergington.edu";
          Unregister "Chess Club" "michael@mergington.edu";
          Signup "Chess Club" "emma@mergington.edu"] crowded).
Proof.
  apply (run_keeps_no_duplicates
           [Signup "Chess Club" "emma@mergington.edu";
            Unregister "Chess Club" "michael@mergington.edu";
            Signup "Chess Club" "emma@mergington.edu"] crowded).
  unfold no_duplicates, crowded.
  apply Forall_cons; split; [|constructor].
  simpl. apply NoDup_cons; split; [by apply list_contains_false | apply NoDup_singleton].
Defined.
